(** * zincsearch: pkg/routes/routes.go

    A shallow embedding of [SetRoutes]: the route table it registers on the
    gin engine, the per-route handler chains, and the [NoRoute] fallback with
    its relative redirect for deep links under [/ui/]. *)

From Stdlib Require Import String Ascii List ZArith Lia Bool.
From stdpp Require Import base gmap strings.
Import ListNotations.

Local Open Scope string_scope.
Local Open Scope list_scope.

(** ** Go's [strings] package, as far as the fallback uses it.

    A Go string is a sequence of bytes; so is a Rocq [string].  Lengths and
    counts are Go [int]s that are bounded by the length of a string held in
    memory, so they never wrap and are kept in [nat]. *)

Module GoStrings.

(** [s[n:]] for [n <= len(s)]. *)
Fixpoint drop (n : nat) (s : string) : string :=
  match n, s with
  | O, _ => s
  | S n', String _ s' => drop n' s'
  | S _, EmptyString => EmptyString
  end.

(** [strings.HasPrefix(s, prefix)]:
    [len(s) >= len(prefix) && s[:len(prefix)] == prefix]. *)
Fixpoint HasPrefix (s prefix : string) {struct prefix} : bool :=
  match prefix with
  | EmptyString => true
  | String a p' =>
      match s with
      | EmptyString => false
      | String b s' => if Ascii.eqb a b then HasPrefix s' p' else false
      end
  end.

(** [strings.TrimPrefix(s, prefix)]: [s] without the leading [prefix], or
    [s] itself when it does not start with it. *)
Definition TrimPrefix (s prefix : string) : string :=
  if HasPrefix s prefix then drop (String.length prefix) s else s.

(** [strings.Repeat(s, count)] for a non-negative [count]. *)
Fixpoint Repeat (s : string) (count : nat) : string :=
  match count with
  | O => EmptyString
  | S n => s ++ Repeat s n
  end.

(** [bytealg.CountString(s, c)]: the number of bytes of [s] equal to [c]. *)
Fixpoint CountString (s : string) (c : ascii) : nat :=
  match s with
  | EmptyString => 0
  | String b s' => (if Ascii.eqb b c then 1 else 0) + CountString s' c
  end.

(** The loop of [strings.Count] for a separator of two bytes or more:
    find the leftmost instance, count it, continue after it.  [skip] is
    the number of bytes of the current instance still to be stepped
    over, which makes the recursion structural in [s]. *)
Fixpoint countFrom (substr : string) (skip : nat) (s : string) : nat :=
  match s with
  | EmptyString => 0
  | String _ s' =>
      match skip with
      | S k => countFrom substr k s'
      | O =>
          if HasPrefix s substr
          then S (countFrom substr (String.length substr - 1) s')
          else countFrom substr 0 s'
      end
  end.

(** [strings.Count(s, substr)]: the number of non-overlapping instances
    of [substr] in [s].  For the empty separator Go answers the number
    of runes plus one; on the ASCII strings met here a rune is a byte. *)
Definition Count (s substr : string) : nat :=
  match substr with
  | EmptyString => S (String.length s)
  | String c EmptyString => CountString s c
  | _ => countFrom substr 0 s
  end.

End GoStrings.
Import GoStrings.

(** ** The request, the response writer and the log *)

(** [http.Request], the two fields the routes read. *)
Record Request := mkRequest {
  Method : string;
  RequestURI : string
}.

(** A field of a zerolog event: [Str(key, v)] or [Int(key, n)]. *)
Inductive Field :=
| Str (key : string) (val : string)
| Int (key : string) (val : Z).

Inductive Level := ErrorLevel.

(** One event sent to the logger: [log.Error()....Msg(msg)]. *)
Record Event := mkEvent {
  level : Level;
  fields : list Field;
  msg : string
}.

(** [gin.Context], as far as handlers of this file touch it: the request,
    the status of the response writer and its header map.  The header map
    is Go's [http.Header], a map from the canonical key to its values. *)
Record Context := mkContext {
  Req : Request;
  Status : Z;
  Header : gmap string (list string)
}.

Definition StatusFound : Z := 302.
Definition StatusNotFound : Z := 404.

(** [c.Status(code)], on a response whose header is not written yet. *)
Definition setStatus (code : Z) (c : Context) : Context :=
  {| Req := Req c; Status := code; Header := Header c |}.

(** [c.Writer.Header().Set(key, value)]: the key gets the single value. *)
Definition HeaderSet (key value : string) (c : Context) : Context :=
  {| Req := Req c; Status := Status c; Header := <[key := [value]]> (Header c) |}.

(** [http.Header.Get(key)] for a key in canonical form, as [Location]
    is: the first value stored under the key, if any.  Go brings the key
    to its canonical form before it looks it up; the keys of the map are
    canonical. *)
Definition HeaderGet (key : string) (c : Context) : option string :=
  match Header c !! key with
  | Some (v :: _) => Some v
  | _ => None
  end.

(** ** The fallback: the closure given to [r.NoRoute] (routes.go 70-83).

    The state is the context together with the events logged so far. *)
Definition noRouteEvent (req : Request) : Event :=
  {| level := ErrorLevel;
     fields := [Str "method" (Method req); Int "code" 404; Int "took" 0];
     msg := RequestURI req |}.

Definition NoRoute (c : Context) (log : list Event) : Context * list Event :=
  let log := log ++ [noRouteEvent (Req c)] in
  if HasPrefix (RequestURI (Req c)) "/ui/" then
    let path := TrimPrefix (RequestURI (Req c)) "/ui/" in
    let locationPath := Repeat "../" (Count path "/") in
    let c := setStatus StatusFound c in
    let c := HeaderSet "Location" ("./" ++ locationPath) c in
    (c, log)
  else (c, log).

(** gin enters the [NoRoute] chain from [serveError(c, 404, ...)], which
    sets the status of the writer to 404 before the chain runs. *)
Definition serveNotFound (req : Request) : Context :=
  {| Req := req; Status := StatusNotFound; Header := ∅ |}.

(** ** The engine and its route table *)

(** A handler function as [SetRoutes] names it.  The middlewares
    [AuthMiddleware], [ESMiddleware] and [IndexAliasMiddleware] and the
    handlers of the other packages are defined outside routes.go; a route
    only refers to them, so they are kept as names.  [AuthMiddleware]
    carries the operation identifier it is called with. *)
Inductive HandlerFunc :=
| CORS                                  (* cors.New(cors.Config{...}) *)
| AuthMiddleware (permission : string)  (* AuthMiddleware("...") *)
| ESMiddleware
| IndexAliasMiddleware
| Handler (name : string)               (* a function value, e.g. auth.Login *)
| Closure (body : string).              (* func(c *gin.Context) { body } *)

(** A registered route: [r.METHOD(path, handlers...)]. *)
Record Route := mkRoute {
  method : string;
  path : string;
  handlers : list HandlerFunc
}.

(** [gin.Engine]: the engine-wide middleware installed with [Use], the
    routes in registration order, and the [NoRoute] handler.  gin runs the
    engine-wide middleware in front of every chain; the chain of a route
    below is the part given at its registration. *)
Record Engine := mkEngine {
  middleware : list HandlerFunc;
  trees : list Route;
  noRoute : option (Context -> list Event -> Context * list Event)
}.

(** [gin.New()]. *)
Definition New : Engine :=
  {| middleware := []; trees := []; noRoute := None |}.

Definition Use (h : HandlerFunc) (r : Engine) : Engine :=
  {| middleware := middleware r ++ [h]; trees := trees r; noRoute := noRoute r |}.

(** [r.Handle(httpMethod, relativePath, handlers...)].  gin panics when
    the pattern is registered twice for the method or conflicts with
    one that is; the registrations of [SetRoutes] are pairwise distinct,
    and they are studied on an engine that holds no route yet. *)
Definition handle (httpMethod relativePath : string) (hs : list HandlerFunc)
    (r : Engine) : Engine :=
  {| middleware := middleware r;
     trees := trees r ++ [mkRoute httpMethod relativePath hs];
     noRoute := noRoute r |}.

Definition GET := handle "GET".
Definition POST := handle "POST".
Definition PUT := handle "PUT".
Definition DELETE := handle "DELETE".
Definition HEAD := handle "HEAD".

(** [r.StaticFS(relativePath, fs)] registers the file handler for GET and
    HEAD on [path.Join(relativePath, "/*filepath")], which for a
    [relativePath] ending in a slash is [relativePath] followed by
    [*filepath]. *)
Definition StaticFS (relativePath : string) (h : HandlerFunc) (r : Engine) : Engine :=
  let urlPattern := (relativePath ++ "*filepath")%string in
  HEAD urlPattern [h] (GET urlPattern [h] r).

Definition SetNoRoute (h : Context -> list Event -> Context * list Event)
    (r : Engine) : Engine :=
  {| middleware := middleware r; trees := trees r; noRoute := Some h |}.

Notation "r |> f" := (f r) (at level 45, left associativity, only parsing).

(** [SetRoutes], statement by statement.  [HTTPCacheForUI] is defined in
    another file of the package and is taken as a parameter.  The result of
    [zincsearch.GetFrontendAssets()] only feeds the file handler of
    [StaticFS]. *)
Definition SetRoutes (HTTPCacheForUI : Engine -> Engine) (r : Engine) : Engine :=
  r
    |> Use CORS
    |> GET "/"
         [Handler "meta.GUI"]
    |> GET "/version"
         [Handler "meta.GetVersion"]
    |> GET "/healthz"
         [Handler "meta.GetHealthz"]
    (* use ginSwagger middleware to serve the API docs *)
    |> GET "/swagger"
         [Closure "c.Redirect(http.StatusMovedPermanently, /swagger/index.html)"]
    |> GET "/swagger/*any"
         [Handler "ginSwagger.WrapHandler(swaggerFiles.Handler)"]
    (* UI *)
    |> HTTPCacheForUI
    |> StaticFS "/ui/" (Handler "http.FS(front)")
    |> SetNoRoute NoRoute
    (* auth *)
    |> POST "/api/login"
         [Handler "auth.Login"]
    |> POST "/api/user"
         [AuthMiddleware "auth.CreateUpdateUser"; Handler "auth.CreateUpdateUser"]
    |> PUT "/api/user"
         [AuthMiddleware "auth.CreateUpdateUser"; Handler "auth.CreateUpdateUser"]
    |> DELETE "/api/user/:id"
         [AuthMiddleware "auth.DeleteUser"; Handler "auth.DeleteUser"]
    |> GET "/api/user"
         [AuthMiddleware "auth.ListUser"; Handler "auth.ListUser"]
    |> GET "/api/permissions"
         [AuthMiddleware "auth.ListPermissions"; Handler "auth.ListPermissions"]
    |> GET "/api/role"
         [AuthMiddleware "auth.ListRole"; Handler "auth.ListRole"]
    |> POST "/api/role"
         [AuthMiddleware "auth.CreateUpdateRole"; Handler "auth.CreateUpdateRole"]
    |> PUT "/api/role"
         [AuthMiddleware "auth.CreateUpdateRole"; Handler "auth.CreateUpdateRole"]
    |> DELETE "/api/role/:id"
         [AuthMiddleware "auth.DeleteRole"; Handler "auth.DeleteRole"]
    (* index *)
    |> GET "/api/index"
         [AuthMiddleware "index.List"; Handler "index.List"]
    |> GET "/api/index_name"
         [AuthMiddleware "index.IndexNameList"; Handler "index.IndexNameList"]
    |> POST "/api/index"
         [AuthMiddleware "index.Create"; Handler "index.Create"]
    |> PUT "/api/index"
         [AuthMiddleware "index.Create"; Handler "index.Create"]
    |> PUT "/api/index/:target"
         [AuthMiddleware "index.Create"; Handler "index.Create"]
    |> DELETE "/api/index/:target"
         [AuthMiddleware "index.Delete"; Handler "index.Delete"]
    |> GET "/api/index/:target"
         [AuthMiddleware "index.Get"; Handler "index.Get"]
    |> HEAD "/api/index/:target"
         [AuthMiddleware "index.Exists"; Handler "index.Exists"]
    |> POST "/api/index/:target/refresh"
         [AuthMiddleware "index.Refresh"; Handler "index.Refresh"]
    (* index settings *)
    |> GET "/api/:target/_mapping"
         [AuthMiddleware "index.GetMapping"; Handler "index.GetMapping"]
    |> PUT "/api/:target/_mapping"
         [AuthMiddleware "index.SetMapping"; Handler "index.SetMapping"]
    |> GET "/api/:target/_settings"
         [AuthMiddleware "index.GetSettings"; Handler "index.GetSettings"]
    |> PUT "/api/:target/_settings"
         [AuthMiddleware "index.SetSettings"; Handler "index.SetSettings"]
    (* analyze *)
    |> POST "/api/_analyze"
         [AuthMiddleware "index.Analyze"; Handler "index.Analyze"]
    |> POST "/api/:target/_analyze"
         [AuthMiddleware "index.Analyze"; Handler "index.Analyze"]
    (* search *)
    |> POST "/api/:target/_search"
         [AuthMiddleware "search.SearchV1"; Handler "search.SearchV1"]
    (* document *)
    (* Document Bulk update/insert *)
    |> POST "/api/_bulk"
         [AuthMiddleware "document.Bulk"; Handler "document.Bulk"]
    |> POST "/api/:target/_bulk"
         [AuthMiddleware "document.Bulk"; Handler "document.Bulk"]
    |> POST "/api/:target/_multi"
         [AuthMiddleware "document.Multi"; Handler "document.Multi"]
    |> POST "/api/_bulkv2"
         [AuthMiddleware "document.Bulk"; Handler "document.Bulkv2"]
    |> POST "/api/:target/_bulkv2"
         [AuthMiddleware "document.Bulk"; Handler "document.Bulkv2"]
    (* Document CRUD APIs. Update is same as create. *)
    |> POST "/api/:target/_doc"
         [AuthMiddleware "document.Create"; Handler "document.CreateUpdate"]
    |> PUT "/api/:target/_doc"
         [AuthMiddleware "document.Create"; Handler "document.CreateUpdate"]
    |> PUT "/api/:target/_doc/:id"
         [AuthMiddleware "document.Create"; Handler "document.CreateUpdate"]
    |> HEAD "/api/:target/_doc/:id"
         [AuthMiddleware "document.Get"; Handler "document.Get"]
    |> GET "/api/:target/_doc/:id"
         [AuthMiddleware "document.Get"; Handler "document.Get"]
    |> POST "/api/:target/_update/:id"
         [AuthMiddleware "document.Update"; Handler "document.Update"]
    |> DELETE "/api/:target/_doc/:id"
         [AuthMiddleware "document.Delete"; Handler "document.Delete"]
    (* elastic compatible APIs *)
    |> GET "/es/"
         [ESMiddleware; Closure "zutils.GinRenderJSON(c, http.StatusOK, elastic.NewESInfo(c))"]
    |> HEAD "/es/"
         [ESMiddleware; Closure "zutils.GinRenderJSON(c, http.StatusOK, elastic.NewESInfo(c))"]
    |> GET "/es/_license"
         [ESMiddleware; Closure "zutils.GinRenderJSON(c, http.StatusOK, elastic.NewESLicense(c))"]
    |> GET "/es/_xpack"
         [ESMiddleware; Closure "zutils.GinRenderJSON(c, http.StatusOK, elastic.NewESXPack(c))"]
    |> POST "/es/_search"
         [AuthMiddleware "search.SearchDSL"; ESMiddleware; IndexAliasMiddleware; Handler "search.SearchDSL"]
    |> POST "/es/_msearch"
         [AuthMiddleware "search.MultipleSearch"; ESMiddleware; IndexAliasMiddleware; Handler "search.MultipleSearch"]
    |> POST "/es/:target/_search"
         [AuthMiddleware "search.SearchDSL"; ESMiddleware; IndexAliasMiddleware; Handler "search.SearchDSL"]
    |> POST "/es/:target/_msearch"
         [AuthMiddleware "search.MultipleSearch"; ESMiddleware; IndexAliasMiddleware; Handler "search.MultipleSearch"]
    |> POST "/es/:target/_delete_by_query"
         [AuthMiddleware "search.DeleteByQuery"; IndexAliasMiddleware; Handler "search.DeleteByQuery"]
    |> GET "/es/_index_template"
         [AuthMiddleware "index.ListTemplate"; ESMiddleware; Handler "index.ListTemplate"]
    |> POST "/es/_index_template"
         [AuthMiddleware "index.CreateTemplate"; ESMiddleware; Handler "index.CreateTemplate"]
    |> PUT "/es/_index_template/:target"
         [AuthMiddleware "index.CreateTemplate"; ESMiddleware; Handler "index.CreateTemplate"]
    |> GET "/es/_index_template/:target"
         [AuthMiddleware "index.GetTemplate"; ESMiddleware; Handler "index.GetTemplate"]
    |> HEAD "/es/_index_template/:target"
         [AuthMiddleware "index.GetTemplate"; ESMiddleware; Handler "index.GetTemplate"]
    |> DELETE "/es/_index_template/:target"
         [AuthMiddleware "index.DeleteTemplate"; ESMiddleware; Handler "index.DeleteTemplate"]
    (* ES Compatible data stream *)
    |> PUT "/es/_data_stream/:target"
         [AuthMiddleware "elastic.PutDataStream"; ESMiddleware; Handler "elastic.PutDataStream"]
    |> GET "/es/_data_stream/:target"
         [AuthMiddleware "elastic.GetDataStream"; ESMiddleware; Handler "elastic.GetDataStream"]
    |> HEAD "/es/_data_stream/:target"
         [AuthMiddleware "elastic.GetDataStream"; ESMiddleware; Handler "elastic.GetDataStream"]
    |> PUT "/es/:target"
         [AuthMiddleware "index.CreateES"; ESMiddleware; Handler "index.CreateES"]
    |> HEAD "/es/:target"
         [AuthMiddleware "index.Exists"; ESMiddleware; Handler "index.Exists"]
    |> GET "/es/:target/_mapping"
         [AuthMiddleware "index.GetESMapping"; ESMiddleware; Handler "index.GetESMapping"]
    |> PUT "/es/:target/_mapping"
         [AuthMiddleware "index.SetMapping"; ESMiddleware; Handler "index.SetMapping"]
    |> GET "/es/:target/_settings"
         [AuthMiddleware "index.GetSettings"; ESMiddleware; Handler "index.GetSettings"]
    |> PUT "/es/:target/_settings"
         [AuthMiddleware "index.SetSettings"; ESMiddleware; Handler "index.SetSettings"]
    |> POST "/es/_analyze"
         [AuthMiddleware "index.Analyze"; ESMiddleware; Handler "index.Analyze"]
    |> POST "/es/:target/_analyze"
         [AuthMiddleware "index.Analyze"; ESMiddleware; Handler "index.Analyze"]
    |> POST "/es/_aliases"
         [AuthMiddleware "index.AddOrRemoveESAlias"; ESMiddleware; Handler "index.AddOrRemoveESAlias"]
    |> GET "/es/_alias"
         [AuthMiddleware "index.GetESAliases"; ESMiddleware; Handler "index.GetESAliases"]
    |> GET "/es/:target/_alias"
         [AuthMiddleware "index.GetESAliases"; ESMiddleware; Handler "index.GetESAliases"]
    |> GET "/es/_alias/:target_alias"
         [AuthMiddleware "index.GetESAliases"; ESMiddleware; Handler "index.GetESAliases"]
    (* ES Bulk update/insert *)
    |> POST "/es/_bulk"
         [AuthMiddleware "document.ESBulk"; ESMiddleware; Handler "document.ESBulk"]
    |> POST "/es/:target/_bulk"
         [AuthMiddleware "document.ESBulk"; ESMiddleware; Handler "document.ESBulk"]
    |> PUT "/es/:target/_bulk"
         [AuthMiddleware "document.ESBulk"; ESMiddleware; Handler "document.ESBulk"]
    |> POST "/es/:target/_refresh"
         [AuthMiddleware "index.Refresh"; Handler "index.Refresh"]
    (* ES Document *)
    |> POST "/es/:target/_doc"
         [AuthMiddleware "document.CreateUpdate"; ESMiddleware; Handler "document.CreateUpdate"]
    |> PUT "/es/:target/_doc/:id"
         [AuthMiddleware "document.CreateUpdate"; ESMiddleware; Handler "document.CreateUpdate"]
    |> PUT "/es/:target/_create/:id"
         [AuthMiddleware "document.CreateUpdate"; ESMiddleware; Handler "document.CreateUpdate"]
    |> POST "/es/:target/_create/:id"
         [AuthMiddleware "document.CreateUpdate"; ESMiddleware; Handler "document.CreateUpdate"]
    |> POST "/es/:target/_update/:id"
         [AuthMiddleware "document.Update"; ESMiddleware; Handler "document.Update"]
    |> DELETE "/es/:target/_doc/:id"
         [AuthMiddleware "document.Delete"; ESMiddleware; Handler "document.Delete"].

(** ** Reading the route table *)

Definition sameRoute (m p : string) (rt : Route) : bool :=
  String.eqb (method rt) m && String.eqb (path rt) p.

(** The chain registered for a method and a path pattern.  gin refuses a
    second registration of the same pair, so the first one found is the
    only one. *)
Definition chainOf (r : Engine) (m p : string) : option (list HandlerFunc) :=
  option_map handlers (find (sameRoute m p) (trees r)).

Definition isAuth (h : HandlerFunc) : bool :=
  match h with AuthMiddleware _ => true | _ => false end.

Definition isES (h : HandlerFunc) : bool :=
  match h with ESMiddleware => true | _ => false end.

Definition isAlias (h : HandlerFunc) : bool :=
  match h with IndexAliasMiddleware => true | _ => false end.

(** How many times a chain passes through a kind of stage. *)
Definition passes (P : HandlerFunc -> bool) (hs : list HandlerFunc) : nat :=
  length (List.filter P hs).

(** Every [P] stage of the chain stands strictly before every [Q] stage. *)
Definition precedes (P Q : HandlerFunc -> bool) (hs : list HandlerFunc) : Prop :=
  forall i j a b,
    hs !! i = Some a -> hs !! j = Some b ->
    P a = true -> Q b = true -> i < j.

(** The same, as a check: from a [Q] stage on, no [P] stage. *)
Fixpoint precedesb (P Q : HandlerFunc -> bool) (hs : list HandlerFunc) : bool :=
  match hs with
  | [] => true
  | h :: tl =>
      (if Q h then forallb (fun a => negb (P a)) hs else true)
      && precedesb P Q tl
  end.

(** The two surfaces, told apart by the prefix of the path pattern. *)
Definition native (rt : Route) : bool := HasPrefix (path rt) "/api/".
Definition compatibility (rt : Route) : bool := HasPrefix (path rt) "/es/".

(** The methods that change state. *)
Definition mutating (rt : Route) : bool :=
  String.eqb (method rt) "POST" || String.eqb (method rt) "PUT"
  || String.eqb (method rt) "DELETE".

(** [strings.HasSuffix(s, suffix)]. *)
Definition HasSuffix (s suffix : string) : bool :=
  (String.length suffix <=? String.length s)%nat
  && String.eqb (drop (String.length s - String.length suffix) s) suffix.

(** A search route: the pattern ends in [/_search] or [/_msearch]. *)
Definition searching (rt : Route) : bool :=
  HasSuffix (path rt) "/_search" || HasSuffix (path rt) "/_msearch".

(** The routes the specification lists as informational. *)
Definition informational : list (string * string) :=
  [("GET", "/version"); ("GET", "/healthz"); ("GET", "/es/");
   ("GET", "/es/_license"); ("GET", "/es/_xpack")].

(** A [HTTPCacheForUI] that registers no route leaves the table alone. *)
Definition registersNoRoute (f : Engine -> Engine) : Prop :=
  forall r, trees (f r) = trees r.

(** One such function: it installs an engine-wide middleware. *)
Definition cacheByUse : Engine -> Engine :=
  Use (Closure "cache-control for /ui/assets/").

(** The routes of [SetRoutes] on a fresh engine, [HTTPCacheForUI] adding
    none. *)
Definition routeTable : list Route := trees (SetRoutes cacheByUse New).

(** The two shapes of a chain on the compatibility surface. *)
Definition fullChain (hs : list HandlerFunc) : Prop :=
  exists operationId h,
    hs = [AuthMiddleware operationId; ESMiddleware; IndexAliasMiddleware;
          Handler h].

Definition plainChain (hs : list HandlerFunc) : Prop :=
  exists operationId h,
    hs = [AuthMiddleware operationId; ESMiddleware; Handler h].

Definition fullChainb (hs : list HandlerFunc) : bool :=
  match hs with
  | [AuthMiddleware _; ESMiddleware; IndexAliasMiddleware; Handler _] => true
  | _ => false
  end.

Definition plainChainb (hs : list HandlerFunc) : bool :=
  match hs with
  | [AuthMiddleware _; ESMiddleware; Handler _] => true
  | _ => false
  end.

(** The two routes of the compatibility surface that change state and
    leave [ESMiddleware] out. *)
Definition withoutES (rt : Route) : bool :=
  String.eqb (path rt) "/es/:target/_delete_by_query"
  || String.eqb (path rt) "/es/:target/_refresh".

(** The shape expected of a route on the compatibility surface, as a
    check on one route. *)
Definition compatibilityShape (rt : Route) : bool :=
  if compatibility rt then
    if searching rt then fullChainb (handlers rt)
    else if mutating rt && negb (withoutES rt) then plainChainb (handlers rt)
    else true
  else true.

(** A native route checked against the route of the same method and the
    same path under [/es/], if there is one. *)
Definition dialectShape (table : list Route) (rn : Route) : bool :=
  if native rn then
    match find (sameRoute (method rn) ("/es/" ++ drop 5 (path rn))) table with
    | Some re =>
        Nat.eqb (passes isES (handlers re)) 1
        && Nat.eqb (passes isES (handlers rn)) 0
    | None => true
    end
  else true.

(** ** The nesting depth of a request path under the UI prefix *)

(** The path of a request URI: what stands before the first [?]. *)
Fixpoint uriPath (uri : string) : string :=
  match uri with
  | EmptyString => EmptyString
  | String c s => if Ascii.eqb c "?" then EmptyString else String c (uriPath s)
  end.

(** The rest of the URI, from the first [?] on (empty without a query). *)
Fixpoint uriQuery (uri : string) : string :=
  match uri with
  | EmptyString => EmptyString
  | String c s => if Ascii.eqb c "?" then uri else uriQuery s
  end.

(** The number of segments of the path beyond [/ui/], segments being
    separated by [/]: 3 for [/ui/a/b/c]. *)
Definition depth (uri : string) : nat :=
  S (CountString (TrimPrefix (uriPath uri) "/ui/") "/").

(** The [Location] header the fallback leaves for a request. *)
Definition locationOf (req : Request) : option string :=
  HeaderGet "Location" (fst (NoRoute (serveNotFound req) [])).

(** The statement that the fallback redirects and climbs one level less
    than the depth: the status is 302 and the [Location] holds exactly
    [depth - 1] instances of [../]. *)
Definition redirectsByDepth (req : Request) : Prop :=
  Status (fst (NoRoute (serveNotFound req) [])) = StatusFound
  /\ exists loc, locationOf req = Some loc
       /\ Count loc "../" = depth (RequestURI req) - 1.

(** ** Running a chain *)

(** Modelled from the spec: the bodies of [AuthMiddleware], [ESMiddleware],
    [IndexAliasMiddleware] and of the handlers are not in routes.go.  The
    answers are the taxonomy of section 7; [Unauthenticated] is the answer
    to a missing or invalid credential. *)
Inductive Answer :=
| Success | Unauthenticated | PermissionDenied | BadRequest | NotFound
| HandlerError.

(** Modelled from the spec: what a handler, an external collaborator, can
    answer (sections 5 and 7): success, a downstream [NotFound], or an
    opaque error that is passed on unchanged. *)
Inductive HandlerResult := Served | Missing | Failed.

Definition answerOf (h : HandlerResult) : Answer :=
  match h with
  | Served => Success
  | Missing => NotFound
  | Failed => HandlerError
  end.

(** Modelled from the spec: the collaborators a chain consults.  [verify]
    is credential verification, [permits] tells whether the role of an
    identity holds the permission mapped from an operation identifier
    (4.2), [wellFormed] is the dialect check of 4.3, [resolves] the alias
    resolution of 4.4, [serve] the handler of a given name. *)
Record Collaborators := mkCollaborators {
  Identity : Type;
  verify : string -> option Identity;
  permits : Identity -> string -> bool;
  wellFormed : Request -> bool;
  resolves : Request -> bool;
  serve : string -> Request -> HandlerResult
}.

(** Modelled from the spec: one stage of a chain, on a request and the
    credential it carries.  [None] lets the chain go on ([c.Next()]); an
    answer ends it. *)
Definition runStage (K : Collaborators) (h : HandlerFunc) (req : Request)
    (credential : option string) : option Answer :=
  match h with
  | CORS => None
  | AuthMiddleware operationId =>
      match credential with
      | None => Some Unauthenticated
      | Some cr =>
          match verify K cr with
          | None => Some Unauthenticated
          | Some id =>
              if permits K id operationId then None else Some PermissionDenied
          end
      end
  | ESMiddleware => if wellFormed K req then None else Some BadRequest
  | IndexAliasMiddleware => if resolves K req then None else Some NotFound
  | Handler name => Some (answerOf (serve K name req))
  | Closure body => Some (answerOf (serve K body req))
  end.

(** The stages run in order until one answers. *)
Fixpoint runChain (K : Collaborators) (hs : list HandlerFunc) (req : Request)
    (credential : option string) : Answer :=
  match hs with
  | [] => Success
  | h :: tl =>
      match runStage K h req credential with
      | Some a => a
      | None => runChain K tl req credential
      end
  end.

(** ** The CORS policy (routes.go 43-50) *)




(** ** The anatomy of a chain *)

(** The handler a chain ends in, as opposed to a middleware. *)
Definition isTerminal (h : HandlerFunc) : bool :=
  match h with
  | Handler _ | Closure _ => true
  | _ => false
  end.

(** A chain laid out in the order of the stages: Authorization, Protocol
    Compatibility, Alias Resolution, each present or not, then the
    terminal handler. *)
Definition stagesOf (auth : option string) (es alias : bool)
    (t : HandlerFunc) : list HandlerFunc :=
  match auth with Some op => [AuthMiddleware op] | None => [] end
  ++ (if es then [ESMiddleware] else [])
  ++ (if alias then [IndexAliasMiddleware] else [])
  ++ [t].

(** Taking a stage off the head of a chain, if it is there. *)
Definition peelAuth (hs : list HandlerFunc) : option string * list HandlerFunc :=
  match hs with
  | AuthMiddleware op :: tl => (Some op, tl)
  | _ => (None, hs)
  end.

Definition peelES (hs : list HandlerFunc) : bool * list HandlerFunc :=
  match hs with
  | ESMiddleware :: tl => (true, tl)
  | _ => (false, hs)
  end.

Definition peelAlias (hs : list HandlerFunc) : bool * list HandlerFunc :=
  match hs with
  | IndexAliasMiddleware :: tl => (true, tl)
  | _ => (false, hs)
  end.

(** Reading a chain back into that layout, when it has it. *)
Definition layoutOf (hs : list HandlerFunc)
    : option (option string * bool * bool * HandlerFunc) :=
  let (auth, hs) := peelAuth hs in
  let (es, hs) := peelES hs in
  let (alias, hs) := peelAlias hs in
  match hs with
  | [t] => if isTerminal t then Some (auth, es, alias, t) else None
  | _ => None
  end.

(** The name of the handler function a chain ends in. *)
Definition handlerName (hs : list HandlerFunc) : option string :=
  match last hs with
  | Some (Handler h) => Some h
  | _ => None
  end.

(** The operation identifier of the Authorization stage a chain opens
    with. *)
Definition permissionOf (hs : list HandlerFunc) : option string :=
  match hs with
  | AuthMiddleware op :: _ => Some op
  | _ => None
  end.

(** The paths under [/es/] that only describe the server. *)
Definition describesServer (rt : Route) : bool :=
  String.eqb (path rt) "/es/" || String.eqb (path rt) "/es/_license"
  || String.eqb (path rt) "/es/_xpack".

(** The check of one route for the protection of the two surfaces: a
    route under [/api/] or [/es/] opens with [AuthMiddleware] unless it
    is the login or describes the server; a route elsewhere has none. *)
Definition protectionShape (rt : Route) : bool :=
  if native rt || compatibility rt then
    if String.eqb (path rt) "/api/login" || describesServer rt
    then Nat.eqb (passes isAuth (handlers rt)) 0
    else match handlers rt with
         | AuthMiddleware _ :: tl => Nat.eqb (passes isAuth tl) 0
         | _ => false
         end
  else Nat.eqb (passes isAuth (handlers rt)) 0.

(** The check of one route under [/api/]: Authorization, then a handler
    function, and nothing else; the login route is the handler alone. *)
Definition nativeShape (rt : Route) : bool :=
  if native rt then
    match handlers rt with
    | [AuthMiddleware _; Handler _] => negb (String.eqb (path rt) "/api/login")
    | [Handler _] => String.eqb (path rt) "/api/login"
    | _ => false
    end
  else true.

(** A route of the compatibility surface served by the search package. *)
Definition searchOnES (rt : Route) : bool :=
  compatibility rt &&
  match handlerName (handlers rt) with
  | Some h => HasPrefix h "search."
  | None => false
  end.

Definition aliasShape (rt : Route) : bool :=
  Nat.eqb (passes isAlias (handlers rt)) (if searchOnES rt then 1 else 0).

(** The operation identifier that goes with a handler: its own name,
    except that version 2 of the bulk handler shares the identifier of
    version 1 and that the native surface asks [document.Create] for
    [document.CreateUpdate]. *)
Definition operationFor (onNative : bool) (h : string) : string :=
  if String.eqb h "document.Bulkv2" then "document.Bulk"
  else if onNative && String.eqb h "document.CreateUpdate"
       then "document.Create"
       else h.

Definition permissionShape (rt : Route) : bool :=
  match permissionOf (handlers rt), handlerName (handlers rt) with
  | Some op, Some h => String.eqb op (operationFor (native rt) h)
  | Some _, None => false
  | None, _ => true
  end.

(** Every byte of a string passes a test. *)
Fixpoint allBytes (P : ascii -> bool) (s : string) : bool :=
  match s with
  | EmptyString => true
  | String c s' => P c && allBytes P s'
  end.

Definition dotOrSlash (c : ascii) : bool :=
  Ascii.eqb c "." || Ascii.eqb c "/".

(** * Properties *)

(** ** Strings *)

Section StringFacts.

Lemma append_cons a (s t : string) :
  (String a s ++ t)%string = String a (s ++ t)%string.
Proof. reflexivity. Qed.

Lemma append_empty (t : string) : (EmptyString ++ t)%string = t.
Proof. reflexivity. Qed.

Lemma HasPrefix_split s p :
  HasPrefix s p = true -> s = (p ++ drop (String.length p) s)%string.
Proof.
  revert s; induction p as [|a p IH]; intros s H; [reflexivity|].
  destruct s as [|b s]; [discriminate|]. simpl in H.
  destruct (Ascii.eqb_spec a b) as [->|]; [|discriminate].
  rewrite append_cons. simpl. f_equal. now apply IH.
Qed.

Lemma HasPrefix_app p s : HasPrefix (p ++ s) p = true.
Proof.
  induction p as [|a p IH]; [reflexivity|].
  rewrite append_cons. simpl. now rewrite Ascii.eqb_refl.
Qed.

Lemma CountString_app s t c :
  CountString (s ++ t) c = CountString s c + CountString t c.
Proof.
  induction s as [|b s IH]; [reflexivity|].
  rewrite append_cons. simpl. rewrite IH. lia.
Qed.

Lemma uri_split uri : uri = (uriPath uri ++ uriQuery uri)%string.
Proof.
  induction uri as [|c s IH]; [reflexivity|]. simpl.
  destruct (Ascii.eqb c "?"); [reflexivity|].
  rewrite append_cons. now f_equal.
Qed.

(** The climb [../../...] holds as many instances of [../] as it was
    built from, and the leading [./] adds none. *)
Lemma countFrom_Repeat n : countFrom "../" 0 (Repeat "../" n) = n.
Proof.
  induction n as [|n IH]; [reflexivity|].
  simpl Repeat. rewrite !append_cons, append_empty. simpl. now rewrite IH.
Qed.

Lemma Count_location n : Count ("./" ++ Repeat "../" n) "../" = n.
Proof.
  unfold Count. rewrite !append_cons, append_empty. simpl.
  apply countFrom_Repeat.
Qed.

End StringFacts.

(** ** The fallback *)

(** On a URI outside [/ui/] the fallback only logs. *)
Lemma NoRoute_other c log :
  HasPrefix (RequestURI (Req c)) "/ui/" = false ->
  NoRoute c log = (c, log ++ [noRouteEvent (Req c)]).
Proof. intros H. unfold NoRoute. now rewrite H. Qed.

(** On a URI under [/ui/] it logs, sets the status and the [Location]. *)
Lemma NoRoute_ui c log :
  HasPrefix (RequestURI (Req c)) "/ui/" = true ->
  NoRoute c log =
    (HeaderSet "Location"
       ("./" ++ Repeat "../" (CountString (drop 4 (RequestURI (Req c))) "/"))
       (setStatus StatusFound c),
     log ++ [noRouteEvent (Req c)]).
Proof. intros H. unfold NoRoute, TrimPrefix. now rewrite H. Qed.

Lemma HeaderGet_HeaderSet k v c : HeaderGet k (HeaderSet k v c) = Some v.
Proof. unfold HeaderGet, HeaderSet. simpl. now rewrite lookup_insert_eq. Qed.

Lemma locationOf_ui req :
  HasPrefix (RequestURI req) "/ui/" = true ->
  locationOf req =
    Some ("./" ++ Repeat "../" (CountString (drop 4 (RequestURI req)) "/"))%string.
Proof.
  intros H. unfold locationOf.
  rewrite (NoRoute_ui (serveNotFound req) []) by exact H.
  apply HeaderGet_HeaderSet.
Qed.

Example NoRoute_deep_link :
  let r := NoRoute (serveNotFound (mkRequest "GET" "/ui/a/b/c")) [] in
  Status (fst r) = 302%Z /\ HeaderGet "Location" (fst r) = Some "./../../".
Proof. split; [reflexivity|]. apply (locationOf_ui (mkRequest "GET" "/ui/a/b/c")). reflexivity. Qed.

Example NoRoute_unknown :
  NoRoute (serveNotFound (mkRequest "GET" "/nothing/here")) [] =
  (serveNotFound (mkRequest "GET" "/nothing/here"),
   [noRouteEvent (mkRequest "GET" "/nothing/here")]).
Proof. reflexivity. Qed.

(** The slashes the fallback counts are those of the path beyond the
    prefix, which make the depth, and those of the query. *)
Lemma slashes_path_query uri :
  HasPrefix uri "/ui/" = true ->
  CountString (drop 4 uri) "/" =
    (depth uri - 1) + CountString (uriQuery uri) "/".
Proof.
  intros H. pose proof (HasPrefix_split _ _ H) as E.
  change (String.length "/ui/") with 4 in E.
  set (rest := drop 4 uri) in *. clearbody rest. subst uri.
  unfold depth.
  change (uriPath ("/ui/" ++ rest)) with ("/ui/" ++ uriPath rest)%string.
  change (uriQuery ("/ui/" ++ rest)) with (uriQuery rest).
  change (TrimPrefix ("/ui/" ++ uriPath rest) "/ui/") with (uriPath rest).
  rewrite (uri_split rest) at 1. rewrite CountString_app. lia.
Qed.

(** C8: on an unmatched request whose URI does not start with [/ui/], the
    fallback logs one event carrying the method, code 404 and the request
    URI, leaves the response as gin prepared it, that is with status 404
    (NotFound), and sets no [Location] header. *)
Theorem fallback_outside_ui_is_not_found (req : Request) (log : list Event) :
  HasPrefix (RequestURI req) "/ui/" = false ->
  let out := NoRoute (serveNotFound req) log in
  snd out =
    log ++ [mkEvent ErrorLevel
              [Str "method" (Method req); Int "code" 404; Int "took" 0]
              (RequestURI req)]
  /\ Status (fst out) = StatusNotFound
  /\ Header (fst out) !! "Location" = None
  /\ HeaderGet "Location" (fst out) = None
  /\ (forall c : Context, Req c = req -> fst (NoRoute c log) = c).
Proof.
  intros H out. subst out.
  rewrite (NoRoute_other (serveNotFound req) log) by exact H.
  repeat split.
  intros c <-. now rewrite NoRoute_other.
Qed.

Lemma fallback_outside_ui_is_not_found_witness :
  let out := NoRoute (serveNotFound (mkRequest "DELETE" "/uix/a?b=/ui/")) [] in
  snd out =
    [mkEvent ErrorLevel
       [Str "method" "DELETE"; Int "code" 404; Int "took" 0]
       "/uix/a?b=/ui/"]
  /\ Status (fst out) = 404%Z
  /\ HeaderGet "Location" (fst out) = None.
Proof.
  pose proof (fallback_outside_ui_is_not_found
                (mkRequest "DELETE" "/uix/a?b=/ui/") [] eq_refl) as W.
  simpl in W. destruct W as (W1 & W2 & _ & W4 & _).
  repeat split; assumption.
Defined.

(** C9: the redirect does not look at the method.  Whatever the method,
    the incoming status and headers, an unmatched request whose URI starts
    with [/ui/] leaves the fallback with status 302 and a [Location] that
    begins with [./]. *)
Theorem fallback_redirects_every_method
    (m uri : string) (status : Z) (hdr : gmap string (list string))
    (log : list Event) :
  HasPrefix uri "/ui/" = true ->
  let c := fst (NoRoute (mkContext (mkRequest m uri) status hdr) log) in
  Status c = StatusFound
  /\ exists loc, Header c !! "Location" = Some [loc]
       /\ HeaderGet "Location" c = Some loc
       /\ HasPrefix loc "./" = true.
Proof.
  intros H c. subst c.
  rewrite (NoRoute_ui (mkContext (mkRequest m uri) status hdr)) by exact H.
  split; [reflexivity|]. eexists. split; [|split].
  - simpl. apply lookup_insert_eq.
  - apply HeaderGet_HeaderSet.
  - apply HasPrefix_app.
Qed.

Lemma fallback_redirects_every_method_witness :
  let c := fst (NoRoute (mkContext (mkRequest "POST" "/ui/x/y") 404 ∅) []) in
  Status c = 302%Z
  /\ exists loc, Header c !! "Location" = Some [loc]
       /\ HeaderGet "Location" c = Some loc
       /\ HasPrefix loc "./" = true.
Proof.
  exact (fallback_redirects_every_method "POST" "/ui/x/y" 404 ∅ [] eq_refl).
Defined.

(** C10: for a URI under [/ui/] the [Location] holds as many [../] as the
    whole request URI has slashes after the leading [/ui/].  These are the
    separators of the path, a trailing one included, which give the depth
    less one, plus the slashes of the query string.  On [/ui/a/b?x=c/d]
    the path has depth 2 and the [Location] climbs twice, not once; a
    trailing slash after [/ui/a/b] adds one climb as well. *)
Theorem fallback_counts_every_slash :
  (forall (c : Context) (log : list Event),
     HasPrefix (RequestURI (Req c)) "/ui/" = true ->
     exists loc,
       HeaderGet "Location" (fst (NoRoute c log)) = Some loc
       /\ Count loc "../" = CountString (drop 4 (RequestURI (Req c))) "/"
       /\ Count loc "../" =
            (depth (RequestURI (Req c)) - 1)
            + CountString (uriQuery (RequestURI (Req c))) "/")
  /\ (let req := mkRequest "GET" "/ui/a/b?x=c/d" in
      locationOf req = Some "./../../"
      /\ Count "./../../" "../" = 2
      /\ depth (RequestURI req) - 1 = 1)
  /\ (locationOf (mkRequest "GET" "/ui/a/b") = Some "./../"
      /\ locationOf (mkRequest "GET" "/ui/a/b/") = Some "./../../").
Proof.
  split; [|split].
  - intros c log H. rewrite (NoRoute_ui c log) by exact H.
    eexists. split; [apply HeaderGet_HeaderSet|].
    rewrite Count_location. split; [reflexivity|].
    now apply slashes_path_query.
  - cbv zeta. split; [|split; reflexivity].
    now rewrite locationOf_ui.
  - split; now rewrite locationOf_ui.
Qed.

Lemma fallback_counts_every_slash_witness :
  exists loc,
    HeaderGet "Location"
      (fst (NoRoute (serveNotFound (mkRequest "PUT" "/ui/a/b/c?next=/ui/")) []))
      = Some loc
    /\ Count loc "../" = 4.
Proof.
  destruct (proj1 fallback_counts_every_slash
              (serveNotFound (mkRequest "PUT" "/ui/a/b/c?next=/ui/")) []
              eq_refl) as (loc & Hloc & Hn & _).
  exists loc. split; [exact Hloc | exact Hn].
Defined.

(** Where the query string holds no slash the fallback does what the
    depth asks: for a request, of any method, whose URI starts with
    [/ui/], the status is 302 and the [Location] holds exactly
    [depth - 1] instances of [../]. *)
Lemma redirect_by_depth_without_query_slash (req : Request) :
  HasPrefix (RequestURI req) "/ui/" = true ->
  CountString (uriQuery (RequestURI req)) "/" = 0 ->
  redirectsByDepth req.
Proof.
  intros H Hq. unfold redirectsByDepth. split.
  - now rewrite (NoRoute_ui (serveNotFound req) [] H).
  - rewrite locationOf_ui by exact H. eexists. split; [reflexivity|].
    rewrite Count_location, slashes_path_query by exact H. lia.
Qed.

Example redirect_by_depth_deep_link :
  redirectsByDepth (mkRequest "GET" "/ui/a/b/c?tab=1")
  /\ depth "/ui/a/b/c?tab=1" = 3.
Proof.
  split; [|reflexivity].
  apply redirect_by_depth_without_query_slash; reflexivity.
Qed.

(** C5: the code misses the claim on a query string that holds a slash.
    The path of [GET /ui/a/b?x=c/d] lies at depth 2, so the claim asks
    for one [../].  The fallback trims and counts the whole request URI,
    query included, answers 302 with the [Location] [./../../], and so
    climbs twice, past the UI prefix. *)
Theorem redirect_by_depth_fails_with_query_slash :
  let req := mkRequest "GET" "/ui/a/b?x=c/d" in
  let c := fst (NoRoute (serveNotFound req) []) in
  depth (RequestURI req) = 2
  /\ TrimPrefix (RequestURI req) "/ui/" = "a/b?x=c/d"
  /\ Status c = StatusFound
  /\ HeaderGet "Location" c = Some "./../../"
  /\ Count "./../../" "../" = 2
  /\ ~ redirectsByDepth req.
Proof.
  cbv zeta.
  assert (locationOf (mkRequest "GET" "/ui/a/b?x=c/d") = Some "./../../")
    as Hloc by (now rewrite locationOf_ui).
  repeat split; try reflexivity; try exact Hloc.
  intros (_ & loc & Hl & Hn).
  rewrite Hloc in Hl. injection Hl as <-. vm_compute in Hn. discriminate.
Qed.

(** ** The route table *)

Lemma precedesb_sound P Q hs : precedesb P Q hs = true -> precedes P Q hs.
Proof.
  induction hs as [|h tl IH]; intros H i j a b Hi Hj Pa Qb.
  - destruct i; discriminate.
  - cbn [precedesb] in H. apply andb_prop in H as [Hh Htl].
    destruct j as [|j].
    + injection Hj as <-. rewrite Qb in Hh.
      assert (In a (h :: tl)) as Hin
        by (apply list_elem_of_In, list_elem_of_lookup; eauto).
      apply (proj1 (forallb_forall _ _) Hh) in Hin.
      rewrite Pa in Hin. discriminate.
    + destruct i as [|i]; [lia|].
      specialize (IH Htl i j a b Hi Hj Pa Qb). lia.
Qed.

Lemma In_first {A} (f : A -> bool) (l : list A) (x : A) :
  find f l = Some x -> In x l /\ f x = true.
Proof. apply find_some. Qed.

Lemma snoc_all {A} (xs l : list A) :
  fold_left (fun acc x => acc ++ [x]) xs l = l ++ xs.
Proof.
  revert l; induction xs as [|x xs IH]; intros l; simpl.
  - now rewrite app_nil_r.
  - rewrite IH, <- app_assoc. reflexivity.
Qed.

Section Routes.

Variable HTTPCacheForUI : Engine -> Engine.
Hypothesis HTTPCacheForUI_routes : registersNoRoute HTTPCacheForUI.

(** In the model a registration appends, so the routes of [SetRoutes]
    come behind those the engine holds.  The properties are stated on an
    engine without routes, where gin has no earlier registration to
    refuse a new one for. *)
Lemma SetRoutes_trees (r : Engine) :
  trees (SetRoutes HTTPCacheForUI r) = trees r ++ routeTable.
Proof.
  unfold SetRoutes, StaticFS, GET, POST, PUT, DELETE, HEAD.
  cbn [trees handle SetNoRoute].
  rewrite HTTPCacheForUI_routes. cbn [trees handle Use].
  exact (snoc_all routeTable (trees r)).
Qed.

Lemma SetRoutes_New : trees (SetRoutes HTTPCacheForUI New) = routeTable.
Proof. now rewrite SetRoutes_trees. Qed.

Lemma chainOf_table m p :
  chainOf (SetRoutes HTTPCacheForUI New) m p =
  option_map handlers (find (sameRoute m p) routeTable).
Proof. unfold chainOf. now rewrite SetRoutes_New. Qed.

(** The fallback of the engine is the closure of [SetRoutes]. *)
Lemma SetRoutes_noRoute (r : Engine) :
  noRoute (SetRoutes HTTPCacheForUI r) = Some NoRoute.
Proof. reflexivity. Qed.

End Routes.

(** No method and path is registered twice. *)
Lemma SetRoutes_keys_NoDup :
  NoDup (map (fun rt => (method rt, path rt)) routeTable).
Proof. apply (bool_decide_unpack _). vm_compute. exact I. Qed.


Lemma sameRoute_true m p rt :
  sameRoute m p rt = true -> method rt = m /\ path rt = p.
Proof.
  unfold sameRoute. intros H. apply andb_prop in H as [Hm Hp].
  now apply String.eqb_eq in Hm, Hp.
Qed.

Lemma drop_app p x : drop (String.length p) (p ++ x) = x.
Proof.
  induction p as [|a p IH]; [reflexivity|]. rewrite append_cons. exact IH.
Qed.

Lemma fullChainb_sound hs : fullChainb hs = true -> fullChain hs.
Proof.
  destruct hs as [|[] [|[] [|[] [|[] [|]]]]]; try discriminate.
  intros _. eexists _, _. reflexivity.
Qed.

Lemma plainChainb_sound hs : plainChainb hs = true -> plainChain hs.
Proof.
  destruct hs as [|[] [|[] [|[] [|]]]]; try discriminate.
  intros _. eexists _, _. reflexivity.
Qed.

Lemma cacheByUse_registersNoRoute : registersNoRoute cacheByUse.
Proof. intros r. reflexivity. Qed.

(** ** Running a chain *)

Lemma answerOf_authenticated h : answerOf h <> Unauthenticated.
Proof. destruct h; discriminate. Qed.

(** Only the Authorization stage answers [Unauthenticated]. *)
Lemma runChain_without_auth K hs req credential :
  forallb (fun h => negb (isAuth h)) hs = true ->
  runChain K hs req credential <> Unauthenticated.
Proof.
  induction hs as [|h tl IH]; simpl; [discriminate|].
  intros H. apply andb_prop in H as [Hh Htl].
  destruct h; simpl in *; try discriminate;
    try (now apply IH); try apply answerOf_authenticated.
  - destruct (wellFormed K req); [now apply IH | discriminate].
  - destruct (resolves K req); [now apply IH | discriminate].
Qed.

(** A chain that opens with the Authorization stage turns a request
    without credential away. *)
Lemma runChain_protected K operationId tl req :
  runChain K (AuthMiddleware operationId :: tl) req None = Unauthenticated.
Proof. reflexivity. Qed.

Lemma passes_none P hs :
  passes P hs = 0 -> forallb (fun h => negb (P h)) hs = true.
Proof.
  unfold passes. induction hs as [|h tl IH]; [reflexivity|].
  simpl. destruct (P h); simpl; [discriminate | exact IH].
Qed.

(** ** The chains of the registered routes *)

Section RouteTable.

Variable HTTPCacheForUI : Engine -> Engine.
Hypothesis HTTPCacheForUI_routes : registersNoRoute HTTPCacheForUI.

Local Abbreviation engine := (SetRoutes HTTPCacheForUI New).

(** C1: in the chain of every registered route, each Authorization
    stage stands strictly before each Protocol Compatibility stage and
    each Alias Resolution stage. *)
Theorem authorization_precedes (rt : Route) :
  In rt (trees engine) ->
  precedes isAuth (fun h => isES h || isAlias h) (handlers rt).
Proof.
  rewrite SetRoutes_New by assumption.
  intros Hin. apply precedesb_sound.
  assert (forallb
            (fun rt => precedesb isAuth (fun h => isES h || isAlias h)
                         (handlers rt)) routeTable = true) as Hall
    by (vm_compute; reflexivity).
  exact (proj1 (forallb_forall _ _) Hall rt Hin).
Qed.

(** C2, amended: on the compatibility surface a search route, one whose
    pattern ends in [/_search] or [/_msearch], has the chain
    Authorization, Protocol Compatibility, Alias Resolution, handler;
    every other route of a mutating method, [_delete_by_query] and
    [_refresh] set aside, has the chain Authorization, Protocol
    Compatibility, handler, with no Alias Resolution stage. *)
Theorem compatibility_chains (rt : Route) :
  In rt (trees engine) ->
  compatibility rt = true ->
  (searching rt = true -> fullChain (handlers rt))
  /\ (searching rt = false -> mutating rt = true -> withoutES rt = false ->
      plainChain (handlers rt)).
Proof.
  rewrite SetRoutes_New by assumption.
  intros Hin Hc.
  assert (forallb compatibilityShape routeTable = true) as Hall
    by (vm_compute; reflexivity).
  pose proof (proj1 (forallb_forall _ _) Hall rt Hin) as Hrt.
  unfold compatibilityShape in Hrt. rewrite Hc in Hrt.
  split.
  - intros Hs. rewrite Hs in Hrt. now apply fullChainb_sound.
  - intros Hs Hm Hw. rewrite Hs, Hm, Hw in Hrt.
    now apply plainChainb_sound.
Qed.

(** C3, amended: [POST /api/login] is registered with the handler
    [auth.Login] alone; no Authorization stage stands before it. *)
Theorem login_chain :
  chainOf engine "POST" "/api/login" = Some [Handler "auth.Login"].
Proof. now rewrite chainOf_table. Qed.

(** C4: each informational route is registered with a chain that has no
    Authorization stage, and on such a chain no request, with or
    without credential, is answered [Unauthenticated], whatever the
    other stages and the handler do. *)
Theorem informational_routes_skip_authorization (m p : string) :
  In (m, p) informational ->
  exists hs,
    chainOf engine m p = Some hs
    /\ passes isAuth hs = 0
    /\ forall K req credential,
         runChain K hs req credential <> Unauthenticated.
Proof.
  rewrite chainOf_table by assumption.
  intros Hin.
  assert (exists hs,
            option_map handlers (find (sameRoute m p) routeTable) = Some hs
            /\ passes isAuth hs = 0) as (hs & Hhs & Hno).
  { simpl in Hin.
    repeat (destruct Hin as [Hin | Hin];
            [injection Hin as <- <-; eexists; split; reflexivity|]).
    destruct Hin. }
  exists hs. split; [exact Hhs|]. split; [exact Hno|].
  intros K req credential.
  now apply runChain_without_auth, passes_none.
Qed.

(** C6: when a method and a path are registered under [/api/] and under
    [/es/], the chain of the compatibility route passes through
    [ESMiddleware] exactly once and the chain of the native route never
    does. *)
Theorem dialect_chains (m x : string) (hn he : list HandlerFunc) :
  chainOf engine m ("/api/" ++ x) = Some hn ->
  chainOf engine m ("/es/" ++ x) = Some he ->
  passes isES he = 1 /\ passes isES hn = 0.
Proof.
  rewrite !chainOf_table by assumption.
  destruct (find (sameRoute m ("/api/" ++ x)) routeTable) as [rn|] eqn:Hn;
    [|discriminate].
  intros [= <-].
  apply In_first in Hn as [Hin Hsame].
  apply sameRoute_true in Hsame as [<- Hp].
  assert (forallb (dialectShape routeTable) routeTable = true) as Hall
    by (vm_compute; reflexivity).
  pose proof (proj1 (forallb_forall _ _) Hall rn Hin) as Hrn.
  unfold dialectShape, native in Hrn. rewrite Hp in Hrn.
  rewrite HasPrefix_app in Hrn.
  change 5 with (String.length "/api/") in Hrn. rewrite drop_app in Hrn.
  destruct (find (sameRoute (method rn) ("/es/" ++ x)) routeTable)
    as [re|]; [|discriminate].
  intros [= <-].
  apply andb_prop in Hrn as [H1 H0].
  now apply Nat.eqb_eq in H1, H0.
Qed.

(** C7: [POST /api/_bulk] and [POST /api/:target/_bulk] are registered
    with the same chain: the Authorization stage of the operation
    [document.Bulk], then the handler [document.Bulk]. *)
Theorem bulk_routes_agree :
  chainOf engine "POST" "/api/_bulk"
    = Some [AuthMiddleware "document.Bulk"; Handler "document.Bulk"]
  /\ chainOf engine "POST" "/api/:target/_bulk"
    = Some [AuthMiddleware "document.Bulk"; Handler "document.Bulk"].
Proof. now rewrite !chainOf_table. Qed.

End RouteTable.

(** The routes under [/api/] never pass through [ESMiddleware]. *)
Lemma native_routes_skip_ES (rt : Route) :
  In rt routeTable -> native rt = true -> passes isES (handlers rt) = 0.
Proof.
  intros Hin Hn.
  assert (forallb (fun rt => negb (native rt)
                             || Nat.eqb (passes isES (handlers rt)) 0)
            routeTable = true) as Hall by (vm_compute; reflexivity).
  pose proof (proj1 (forallb_forall _ _) Hall rt Hin) as Hrt.
  cbv beta in Hrt. rewrite Hn in Hrt. now apply Nat.eqb_eq in Hrt.
Qed.

(** Every route with an Authorization stage has it first, and once. *)
Lemma authorization_first (rt : Route) :
  In rt routeTable -> passes isAuth (handlers rt) <> 0 ->
  exists operationId tl,
    handlers rt = AuthMiddleware operationId :: tl /\ passes isAuth tl = 0.
Proof.
  intros Hin Hsome.
  assert (forallb (fun rt => match handlers rt with
                             | AuthMiddleware _ :: tl =>
                                 Nat.eqb (passes isAuth tl) 0
                             | hs => Nat.eqb (passes isAuth hs) 0
                             end) routeTable = true) as Hall
    by (vm_compute; reflexivity).
  pose proof (proj1 (forallb_forall _ _) Hall rt Hin) as Hrt.
  cbv beta in Hrt.
  destruct (handlers rt) as [|[] tl];
    try (apply Nat.eqb_eq in Hrt; contradiction).
  eexists _, _. split; [reflexivity|]. now apply Nat.eqb_eq.
Qed.

Lemma authorization_precedes_witness :
  precedes isAuth (fun h => isES h || isAlias h)
    [AuthMiddleware "search.SearchDSL"; ESMiddleware; IndexAliasMiddleware;
     Handler "search.SearchDSL"].
Proof.
  apply (authorization_precedes cacheByUse cacheByUse_registersNoRoute
           (mkRoute "POST" "/es/_search"
              [AuthMiddleware "search.SearchDSL"; ESMiddleware;
               IndexAliasMiddleware; Handler "search.SearchDSL"])).
  apply (In_first (sameRoute "POST" "/es/_search")). reflexivity.
Defined.

(** C2, the claim as stated fails: [POST /es/_bulk] changes state on the
    compatibility surface and its chain has no Alias Resolution stage. *)
Lemma compatibility_chain_counterexample :
  let rt := mkRoute "POST" "/es/_bulk"
              [AuthMiddleware "document.ESBulk"; ESMiddleware;
               Handler "document.ESBulk"] in
  In rt (trees (SetRoutes cacheByUse New))
  /\ compatibility rt = true /\ mutating rt = true
  /\ ~ fullChain (handlers rt).
Proof.
  cbv zeta. split; [|split; [reflexivity|split; [reflexivity|]]].
  - apply (In_first (sameRoute "POST" "/es/_bulk")). reflexivity.
  - intros (op & h & E). discriminate E.
Qed.

Lemma compatibility_chains_witness :
  fullChain [AuthMiddleware "search.MultipleSearch"; ESMiddleware;
             IndexAliasMiddleware; Handler "search.MultipleSearch"]
  /\ plainChain [AuthMiddleware "document.Delete"; ESMiddleware;
                 Handler "document.Delete"].
Proof.
  split.
  - apply (compatibility_chains cacheByUse cacheByUse_registersNoRoute
             (mkRoute "POST" "/es/:target/_msearch"
                [AuthMiddleware "search.MultipleSearch"; ESMiddleware;
                 IndexAliasMiddleware; Handler "search.MultipleSearch"]));
      [apply (In_first (sameRoute "POST" "/es/:target/_msearch"))|..];
      reflexivity.
  - apply (compatibility_chains cacheByUse cacheByUse_registersNoRoute
             (mkRoute "DELETE" "/es/:target/_doc/:id"
                [AuthMiddleware "document.Delete"; ESMiddleware;
                 Handler "document.Delete"]));
      [apply (In_first (sameRoute "DELETE" "/es/:target/_doc/:id"))|..];
      reflexivity.
Defined.

(** C3, the claim as stated fails: the chain of [POST /api/login] holds
    no Authorization stage bound to [auth.Login]. *)
Lemma login_authorization_counterexample :
  ~ exists hs,
      chainOf (SetRoutes cacheByUse New) "POST" "/api/login" = Some hs
      /\ In (AuthMiddleware "auth.Login") hs.
Proof.
  intros (hs & Hhs & Hin).
  rewrite (chainOf_table cacheByUse cacheByUse_registersNoRoute) in Hhs.
  injection Hhs as <-. destruct Hin as [Hin | []]. discriminate Hin.
Qed.

Lemma login_chain_witness :
  chainOf (SetRoutes cacheByUse New) "POST" "/api/login"
    = Some [Handler "auth.Login"].
Proof. exact (login_chain cacheByUse cacheByUse_registersNoRoute). Defined.

Lemma informational_routes_skip_authorization_witness :
  exists hs,
    chainOf (SetRoutes cacheByUse New) "GET" "/es/_license" = Some hs
    /\ passes isAuth hs = 0
    /\ forall K req credential,
         runChain K hs req credential <> Unauthenticated.
Proof.
  apply (informational_routes_skip_authorization
           cacheByUse cacheByUse_registersNoRoute "GET" "/es/_license").
  simpl. auto.
Defined.

Lemma dialect_chains_witness :
  passes isES [AuthMiddleware "document.ESBulk"; ESMiddleware;
               Handler "document.ESBulk"] = 1
  /\ passes isES [AuthMiddleware "document.Bulk"; Handler "document.Bulk"] = 0.
Proof.
  apply (dialect_chains cacheByUse cacheByUse_registersNoRoute
           "POST" ":target/_bulk"); reflexivity.
Defined.

Lemma bulk_routes_agree_witness :
  chainOf (SetRoutes cacheByUse New) "POST" "/api/_bulk"
  = chainOf (SetRoutes cacheByUse New) "POST" "/api/:target/_bulk".
Proof.
  destruct (bulk_routes_agree cacheByUse cacheByUse_registersNoRoute)
    as [-> ->].
  reflexivity.
Defined.

(** * Further properties of the fallback *)

Lemma string_app_assoc (a b c : string) :
  ((a ++ b) ++ c)%string = (a ++ (b ++ c))%string.
Proof.
  induction a as [|x a IH]; [reflexivity|].
  rewrite !append_cons. now f_equal.
Qed.

Lemma string_app_empty_r (a : string) : (a ++ "")%string = a.
Proof.
  induction a as [|x a IH]; [reflexivity|]. rewrite append_cons. now f_equal.
Qed.

Lemma HasPrefix_app_l s t p :
  HasPrefix s p = true -> HasPrefix (s ++ t) p = true.
Proof.
  intros H. rewrite (HasPrefix_split _ _ H), string_app_assoc.
  apply HasPrefix_app.
Qed.

Lemma drop_prefix_app s t p :
  HasPrefix s p = true ->
  drop (String.length p) (s ++ t) = (drop (String.length p) s ++ t)%string.
Proof.
  intros H. rewrite (HasPrefix_split _ _ H) at 1.
  rewrite string_app_assoc. apply drop_app.
Qed.

Lemma Repeat_add s a b :
  Repeat s (a + b) = (Repeat s a ++ Repeat s b)%string.
Proof.
  induction a as [|a IH]; [reflexivity|].
  simpl. now rewrite IH, string_app_assoc.
Qed.

Lemma allBytes_app P s t :
  allBytes P (s ++ t) = allBytes P s && allBytes P t.
Proof.
  induction s as [|c s IH]; [reflexivity|].
  rewrite append_cons. simpl. now rewrite IH, andb_assoc.
Qed.

Lemma allBytes_Repeat P s n :
  allBytes P s = true -> allBytes P (Repeat s n) = true.
Proof.
  intros H. induction n as [|n IH]; [reflexivity|].
  simpl. now rewrite allBytes_app, H, IH.
Qed.

Lemma length_app_string (s t : string) :
  String.length (s ++ t) = String.length s + String.length t.
Proof.
  induction s as [|c s IH]; [reflexivity|].
  rewrite append_cons. simpl. now rewrite IH.
Qed.

Lemma Repeat_length s n :
  String.length (Repeat s n) = n * String.length s.
Proof.
  induction n as [|n IH]; [reflexivity|].
  simpl. rewrite length_app_string, IH. reflexivity.
Qed.

(** X1: whatever the request, the fallback adds exactly one event to the
    log, an error event with code 404 that carries the method and the
    request URI, and keeps the earlier events; this holds as well when
    the response is the 302 redirect.  The request is left as it was, and
    the response is either untouched or has status 302. *)
Theorem fallback_logs_once (c : Context) (log : list Event) :
  snd (NoRoute c log) =
    log ++ [mkEvent ErrorLevel
              [Str "method" (Method (Req c)); Int "code" 404; Int "took" 0]
              (RequestURI (Req c))]
  /\ Req (fst (NoRoute c log)) = Req c
  /\ (fst (NoRoute c log) = c
      \/ Status (fst (NoRoute c log)) = StatusFound).
Proof.
  destruct (HasPrefix (RequestURI (Req c)) "/ui/") eqn:H.
  - rewrite (NoRoute_ui c log H). repeat split. now right.
  - rewrite (NoRoute_other c log H). repeat split. now left.
Qed.

(** X2: the fallback never touches an entry of the header map other than
    [Location]: the map it leaves is the one it found, or that one with
    the single value of the redirect stored under [Location].  Whatever
    an earlier middleware has stored under another key is still there
    afterwards, on the redirect as on the 404. *)
Theorem fallback_keeps_other_headers (c : Context) (log : list Event)
    (key : string) :
  key <> "Location" ->
  Header (fst (NoRoute c log)) !! key = Header c !! key
  /\ (Header (fst (NoRoute c log)) = Header c
      \/ exists loc,
           Header (fst (NoRoute c log)) = <["Location" := [loc]]> (Header c)).
Proof.
  intros Hk.
  destruct (HasPrefix (RequestURI (Req c)) "/ui/") eqn:H.
  - rewrite (NoRoute_ui c log H). simpl. split.
    + apply lookup_insert_ne. congruence.
    + right. eexists. reflexivity.
  - rewrite (NoRoute_other c log H). split; [reflexivity|now left].
Qed.

Lemma fallback_keeps_other_headers_witness :
  Header (fst (NoRoute (mkContext (mkRequest "GET" "/ui/a/b") 404
                          {["Vary" := ["Origin"]]}) []))
    !! "Vary" = Some ["Origin"].
Proof.
  rewrite (proj1 (fallback_keeps_other_headers
                    (mkContext (mkRequest "GET" "/ui/a/b") 404
                       {["Vary" := ["Origin"]]}) [] "Vary"
                    ltac:(discriminate))).
  reflexivity.
Defined.

(** X3: a [Location] set before the fallback runs does not survive the
    redirect: the header then holds the single value of the fallback. *)
Theorem fallback_replaces_location (c : Context) (log : list Event) :
  HasPrefix (RequestURI (Req c)) "/ui/" = true ->
  Header (fst (NoRoute c log)) !! "Location" =
    Some ["./" ++ Repeat "../" (Count (TrimPrefix (RequestURI (Req c)) "/ui/") "/")]%string
  /\ fst (NoRoute (fst (NoRoute c log)) log) = fst (NoRoute c log).
Proof.
  intros H. rewrite (NoRoute_ui c log H).
  split.
  - simpl. rewrite lookup_insert_eq. unfold TrimPrefix. now rewrite H.
  - rewrite NoRoute_ui by exact H. simpl.
    unfold HeaderSet, setStatus. simpl. now rewrite insert_insert_eq.
Qed.

Lemma fallback_replaces_location_witness :
  Header (fst (NoRoute (mkContext (mkRequest "GET" "/ui/a/b") 404
                          {["Location" := ["/login"; "/old"]]}) []))
    !! "Location" = Some ["./../"].
Proof.
  exact (proj1 (fallback_replaces_location
                  (mkContext (mkRequest "GET" "/ui/a/b") 404
                     {["Location" := ["/login"; "/old"]]}) [] eq_refl)).
Defined.

(** X4: the redirect grows with the request: whatever is appended to a
    URI under [/ui/] appends one [../] to the [Location] for each slash
    it holds, and nothing otherwise. *)
Theorem fallback_location_composes (m uri more : string) :
  HasPrefix uri "/ui/" = true ->
  exists loc,
    locationOf (mkRequest m uri) = Some loc
    /\ locationOf (mkRequest m (uri ++ more)) =
         Some (loc ++ Repeat "../" (CountString more "/"))%string.
Proof.
  intros H. eexists. split; [now apply locationOf_ui|].
  rewrite locationOf_ui by (now apply HasPrefix_app_l).
  simpl RequestURI.
  change 4 with (String.length "/ui/").
  rewrite (drop_prefix_app uri more "/ui/" H), CountString_app, Repeat_add.
  now rewrite string_app_assoc.
Qed.

Lemma fallback_location_composes_witness :
  locationOf (mkRequest "GET" ("/ui/a" ++ "/b/c.js")) = Some "./../../".
Proof.
  destruct (fallback_location_composes "GET" "/ui/a" "/b/c.js" eq_refl)
    as (loc & Hloc & Hmore).
  rewrite Hmore. change (locationOf (mkRequest "GET" "/ui/a"))
    with (Some "./") in Hloc.
  injection Hloc as <-. reflexivity.
Defined.

(** X5: the redirect is given exactly when the request URI is [/ui/]
    followed by something, possibly nothing: the test is on the bytes of
    the URI, so [/ui] without its slash, [/UI/] and any URI shorter than
    four bytes get the 404.  On a redirect the trimmed path put back
    behind [/ui/] is the URI. *)
Theorem fallback_redirects_iff_prefixed (req : Request) (log : list Event) :
  (Status (fst (NoRoute (serveNotFound req) log)) = StatusFound
   <-> exists rest, RequestURI req = ("/ui/" ++ rest)%string)
  /\ (Status (fst (NoRoute (serveNotFound req) log)) = StatusFound
      \/ Status (fst (NoRoute (serveNotFound req) log)) = StatusNotFound)
  /\ (String.length (RequestURI req) < 4 ->
      Status (fst (NoRoute (serveNotFound req) log)) = StatusNotFound)
  /\ (Status (fst (NoRoute (serveNotFound req) log)) = StatusFound ->
      RequestURI req = ("/ui/" ++ TrimPrefix (RequestURI req) "/ui/")%string).
Proof.
  destruct (HasPrefix (RequestURI req) "/ui/") eqn:H.
  - rewrite (NoRoute_ui (serveNotFound req) log H).
    pose proof (HasPrefix_split _ _ H) as E.
    repeat split; try (now left).
    + intros _. eexists. exact E.
    + intros Hlen. rewrite E, length_app_string in Hlen. simpl in Hlen. lia.
    + intros _. unfold TrimPrefix. rewrite H. exact E.
  - rewrite (NoRoute_other (serveNotFound req) log H).
    repeat split; try (now right); try discriminate.
    intros (rest & E). simpl in E. rewrite E, HasPrefix_app in H.
    discriminate.
Qed.

Lemma fallback_redirects_iff_prefixed_witness :
  Status (fst (NoRoute (serveNotFound (mkRequest "GET" "/ui/")) [])) = 302%Z
  /\ Status (fst (NoRoute (serveNotFound (mkRequest "GET" "/ui")) [])) = 404%Z.
Proof.
  split.
  - apply (proj1 (fallback_redirects_iff_prefixed (mkRequest "GET" "/ui/") [])).
    exists ""%string. reflexivity.
  - apply (fallback_redirects_iff_prefixed (mkRequest "GET" "/ui") []).
    simpl. lia.
Defined.

(** X6: the [Location] of the redirect is made of dots and slashes only,
    [./] and then [../] as many times as counted, so no byte of the
    request reaches the header; its length is two plus three times the
    number of slashes after [/ui/]. *)
Theorem fallback_location_alphabet (c : Context) (log : list Event) :
  HasPrefix (RequestURI (Req c)) "/ui/" = true ->
  exists loc,
    HeaderGet "Location" (fst (NoRoute c log)) = Some loc
    /\ allBytes dotOrSlash loc = true
    /\ String.length loc =
         2 + 3 * CountString (drop 4 (RequestURI (Req c))) "/".
Proof.
  intros H. rewrite (NoRoute_ui c log H). eexists.
  split; [apply HeaderGet_HeaderSet|]. split.
  - rewrite allBytes_app, allBytes_Repeat by reflexivity. reflexivity.
  - rewrite length_app_string, Repeat_length. simpl. lia.
Qed.

Lemma fallback_location_alphabet_witness :
  exists loc,
    HeaderGet "Location"
      (fst (NoRoute (serveNotFound (mkRequest "GET" "/ui/%0d%0aSet-Cookie:x/y")) []))
    = Some loc
    /\ allBytes dotOrSlash loc = true
    /\ String.length loc = 5.
Proof.
  exact (fallback_location_alphabet
           (serveNotFound (mkRequest "GET" "/ui/%0d%0aSet-Cookie:x/y")) []
           eq_refl).
Defined.

(** * Further properties of the route table *)

Lemma find_by_key (l : list Route) (rt : Route) :
  NoDup (map (fun rt => (method rt, path rt)) l) ->
  In rt l ->
  find (sameRoute (method rt) (path rt)) l = Some rt.
Proof.
  induction l as [|x l IH]; intros Hnd Hin; [destruct Hin|].
  inversion Hnd as [|k ks Hnotin Hnd']; subst.
  simpl. destruct (sameRoute (method rt) (path rt) x) eqn:E.
  - destruct Hin as [->|Hin]; [reflexivity|].
    apply sameRoute_true in E as [Hm Hp].
    exfalso. apply Hnotin. rewrite Hm, Hp.
    apply list_elem_of_In.
    exact (in_map (fun rt => (method rt, path rt)) l rt Hin).
  - destruct Hin as [->|Hin]; [|now apply IH].
    unfold sameRoute in E. now rewrite !String.eqb_refl in E.
Qed.

Lemma peelAuth_eq hs a tl :
  peelAuth hs = (a, tl) ->
  hs = match a with Some op => [AuthMiddleware op] | None => [] end ++ tl.
Proof. destruct hs as [|[] ?]; simpl; intros [= <- <-]; reflexivity. Qed.

Lemma peelES_eq hs e tl :
  peelES hs = (e, tl) -> hs = (if e then [ESMiddleware] else []) ++ tl.
Proof. destruct hs as [|[] ?]; simpl; intros [= <- <-]; reflexivity. Qed.

Lemma peelAlias_eq hs al tl :
  peelAlias hs = (al, tl) ->
  hs = (if al then [IndexAliasMiddleware] else []) ++ tl.
Proof. destruct hs as [|[] ?]; simpl; intros [= <- <-]; reflexivity. Qed.

Lemma layoutOf_sound hs auth es alias t :
  layoutOf hs = Some (auth, es, alias, t) ->
  hs = stagesOf auth es alias t /\ isTerminal t = true.
Proof.
  unfold layoutOf, stagesOf. intros H.
  destruct (peelAuth hs) as [a hs1] eqn:E1.
  destruct (peelES hs1) as [e hs2] eqn:E2.
  destruct (peelAlias hs2) as [al hs3] eqn:E3.
  destruct hs3 as [|t' [|]]; try discriminate H.
  destruct (isTerminal t') eqn:Ht; [|discriminate H].
  injection H as <- <- <- <-. split; [|exact Ht].
  apply peelAlias_eq in E3. apply peelES_eq in E2. apply peelAuth_eq in E1.
  now subst.
Qed.


Lemma String_neq_eqb a b : a <> b -> String.eqb a b = false.
Proof. intros H. destruct (String.eqb_spec a b); [contradiction|reflexivity]. Qed.

Section MoreOfTheTable.

Variable HTTPCacheForUI : Engine -> Engine.
Hypothesis HTTPCacheForUI_routes : registersNoRoute HTTPCacheForUI.

Local Abbreviation engine := (SetRoutes HTTPCacheForUI New).

(** A check that holds of every row of the table holds of every route of
    the engine. *)
Lemma table_check (f : Route -> bool) (rt : Route) :
  forallb f routeTable = true -> In rt (trees engine) -> f rt = true.
Proof.
  intros Hall Hin. rewrite SetRoutes_New in Hin by assumption.
  exact (proj1 (forallb_forall _ _) Hall rt Hin).
Qed.


(** X8: no method and path is registered twice, so every route that
    [SetRoutes] registers is the one found under its method and path:
    no registration hides another. *)
Theorem registered_route_found (rt : Route) :
  In rt (trees engine) ->
  chainOf engine (method rt) (path rt) = Some (handlers rt)
  /\ NoDup (map (fun rt => (method rt, path rt)) (trees engine)).
Proof.
  intros Hin. rewrite chainOf_table by assumption.
  rewrite SetRoutes_New in * by assumption.
  split; [|exact SetRoutes_keys_NoDup].
  now rewrite (find_by_key routeTable rt SetRoutes_keys_NoDup Hin).
Qed.

(** X9: every chain is laid out in one order: the Authorization stage if
    there is one, then [ESMiddleware] if there is one, then
    [IndexAliasMiddleware] if there is one, then exactly one terminal
    handler, which comes last.  No stage occurs twice and no middleware
    follows the handler. *)
Theorem chains_laid_out (rt : Route) :
  In rt (trees engine) ->
  exists auth es alias t,
    isTerminal t = true /\ handlers rt = stagesOf auth es alias t.
Proof.
  intros Hin.
  assert (forallb (fun rt => match layoutOf (handlers rt) with
                             | Some _ => true
                             | None => false
                             end) routeTable = true) as Hall
    by (vm_compute; reflexivity).
  pose proof (table_check _ rt Hall Hin) as Hrt. clear Hall Hin. cbv beta in Hrt.
  destruct (layoutOf (handlers rt)) as [[[[auth es] alias] t]|] eqn:E;
    [|discriminate].
  apply layoutOf_sound in E as [E Ht].
  exists auth, es, alias, t. split; assumption.
Qed.

(** X10: the two surfaces are closed.  A route under [/api/] or [/es/]
    opens with [AuthMiddleware], which then occurs only there, unless it
    is [/api/login] or one of [/es/], [/es/_license], [/es/_xpack]; those
    and the routes outside both surfaces have no Authorization stage. *)
Theorem surfaces_protected (rt : Route) :
  In rt (trees engine) ->
  (native rt = false -> compatibility rt = false ->
   passes isAuth (handlers rt) = 0)
  /\ (path rt = "/api/login" \/ describesServer rt = true ->
      passes isAuth (handlers rt) = 0)
  /\ (native rt = true \/ compatibility rt = true ->
      path rt <> "/api/login" -> describesServer rt = false ->
      exists operationId tl,
        handlers rt = AuthMiddleware operationId :: tl
        /\ passes isAuth tl = 0).
Proof.
  intros Hin.
  assert (forallb protectionShape routeTable = true) as Hall
    by (vm_compute; reflexivity).
  pose proof (table_check _ rt Hall Hin) as Hrt. clear Hall.
  assert (forallb (fun rt => negb (String.eqb (path rt) "/api/login"
                                   || describesServer rt)
                             || (native rt || compatibility rt))
            routeTable = true) as Hall'
    by (vm_compute; reflexivity).
  pose proof (table_check _ rt Hall' Hin) as Hrt'. cbv beta in Hrt'.
  clear Hall' Hin.
  unfold protectionShape in Hrt.
  split; [|split].
  - intros Hn Hc. rewrite Hn, Hc in Hrt. now apply Nat.eqb_eq.
  - intros Hopen.
    assert (String.eqb (path rt) "/api/login" || describesServer rt = true)
      as Ho.
    { destruct Hopen as [->| ->]; [reflexivity|apply orb_true_r]. }
    rewrite Ho in Hrt, Hrt'. simpl in Hrt'. rewrite Hrt' in Hrt.
    now apply Nat.eqb_eq.
  - intros Hs Hl Hd.
    assert (native rt || compatibility rt = true) as Hs'
      by (destruct Hs as [-> | ->]; [reflexivity|apply orb_true_r]).
    rewrite Hs', (String_neq_eqb _ _ Hl), Hd in Hrt. simpl in Hrt.
    destruct (handlers rt) as [|[] tl]; try discriminate.
    eexists _, _. split; [reflexivity|]. now apply Nat.eqb_eq.
Qed.

(** X11: on the native surface a chain is the Authorization stage and a
    handler function, nothing more: no route under [/api/] passes
    through [ESMiddleware] or [IndexAliasMiddleware].  The login route
    is the handler alone. *)
Theorem native_chains (rt : Route) :
  In rt (trees engine) ->
  native rt = true ->
  (path rt <> "/api/login" ->
   exists operationId h,
     handlers rt = [AuthMiddleware operationId; Handler h])
  /\ (path rt = "/api/login" -> exists h, handlers rt = [Handler h]).
Proof.
  intros Hin Hn.
  assert (forallb nativeShape routeTable = true) as Hall
    by (vm_compute; reflexivity).
  pose proof (table_check _ rt Hall Hin) as Hrt. clear Hall Hin.
  unfold nativeShape in Hrt. rewrite Hn in Hrt.
  split.
  - intros Hl. rewrite (String_neq_eqb _ _ Hl) in Hrt.
    destruct (handlers rt) as [|[] [|[] [|]]]; try discriminate.
    now eexists _, _.
  - intros Hl. rewrite Hl in Hrt.
    destruct (handlers rt) as [|[] [|[] [|]]]; try discriminate.
    now eexists.
Qed.

(** X12: [IndexAliasMiddleware] stands, once, in the chains of the
    routes under [/es/] whose handler belongs to the search package, and
    in no other chain. *)
Theorem alias_on_search_only (rt : Route) :
  In rt (trees engine) ->
  passes isAlias (handlers rt) = if searchOnES rt then 1 else 0.
Proof.
  intros Hin.
  assert (forallb aliasShape routeTable = true) as Hall
    by (vm_compute; reflexivity).
  pose proof (table_check _ rt Hall Hin) as Hrt. clear Hall Hin.
  now apply Nat.eqb_eq in Hrt.
Qed.

(** X13: the operation identifier given to [AuthMiddleware] follows from
    the handler of the route: it is the name of the handler, except that
    [document.Bulkv2] is authorized as [document.Bulk] and that the
    native surface authorizes [document.CreateUpdate] as
    [document.Create]. *)
Theorem permission_follows_handler (rt : Route) (operationId : string) :
  In rt (trees engine) ->
  permissionOf (handlers rt) = Some operationId ->
  exists h,
    handlerName (handlers rt) = Some h
    /\ operationId = operationFor (native rt) h.
Proof.
  intros Hin Hop.
  assert (forallb permissionShape routeTable = true) as Hall
    by (vm_compute; reflexivity).
  pose proof (table_check _ rt Hall Hin) as Hrt. clear Hall Hin.
  unfold permissionShape in Hrt. rewrite Hop in Hrt.
  destruct (handlerName (handlers rt)) as [h|]; [|discriminate].
  exists h. split; [reflexivity|]. now apply String.eqb_eq.
Qed.


End MoreOfTheTable.


Lemma registered_route_found_witness :
  chainOf (SetRoutes cacheByUse New) "HEAD" "/es/:target"
  = Some [AuthMiddleware "index.Exists"; ESMiddleware; Handler "index.Exists"].
Proof.
  apply (registered_route_found cacheByUse cacheByUse_registersNoRoute
           (mkRoute "HEAD" "/es/:target"
              [AuthMiddleware "index.Exists"; ESMiddleware;
               Handler "index.Exists"])).
  apply (In_first (sameRoute "HEAD" "/es/:target")). reflexivity.
Defined.

Lemma chains_laid_out_witness :
  exists auth es alias t,
    isTerminal t = true
    /\ [AuthMiddleware "search.DeleteByQuery"; IndexAliasMiddleware;
        Handler "search.DeleteByQuery"] = stagesOf auth es alias t.
Proof.
  apply (chains_laid_out cacheByUse cacheByUse_registersNoRoute
           (mkRoute "POST" "/es/:target/_delete_by_query"
              [AuthMiddleware "search.DeleteByQuery"; IndexAliasMiddleware;
               Handler "search.DeleteByQuery"])).
  apply (In_first (sameRoute "POST" "/es/:target/_delete_by_query")).
  reflexivity.
Defined.

Lemma surfaces_protected_witness :
  exists operationId tl,
    [AuthMiddleware "index.Refresh"; Handler "index.Refresh"]
      = AuthMiddleware operationId :: tl
    /\ passes isAuth tl = 0.
Proof.
  apply (surfaces_protected cacheByUse cacheByUse_registersNoRoute
           (mkRoute "POST" "/es/:target/_refresh"
              [AuthMiddleware "index.Refresh"; Handler "index.Refresh"])).
  - apply (In_first (sameRoute "POST" "/es/:target/_refresh")). reflexivity.
  - right. reflexivity.
  - discriminate.
  - reflexivity.
Defined.

Lemma native_chains_witness :
  exists operationId h,
    [AuthMiddleware "index.Create"; Handler "index.Create"]
      = [AuthMiddleware operationId; Handler h].
Proof.
  apply (native_chains cacheByUse cacheByUse_registersNoRoute
           (mkRoute "PUT" "/api/index/:target"
              [AuthMiddleware "index.Create"; Handler "index.Create"])).
  - apply (In_first (sameRoute "PUT" "/api/index/:target")). reflexivity.
  - reflexivity.
  - discriminate.
Defined.

Lemma alias_on_search_only_witness :
  passes isAlias
    [AuthMiddleware "search.DeleteByQuery"; IndexAliasMiddleware;
     Handler "search.DeleteByQuery"] = 1
  /\ passes isAlias
       [AuthMiddleware "search.SearchV1"; Handler "search.SearchV1"] = 0.
Proof.
  split.
  - apply (alias_on_search_only cacheByUse cacheByUse_registersNoRoute
             (mkRoute "POST" "/es/:target/_delete_by_query"
                [AuthMiddleware "search.DeleteByQuery"; IndexAliasMiddleware;
                 Handler "search.DeleteByQuery"])).
    apply (In_first (sameRoute "POST" "/es/:target/_delete_by_query")).
    reflexivity.
  - apply (alias_on_search_only cacheByUse cacheByUse_registersNoRoute
             (mkRoute "POST" "/api/:target/_search"
                [AuthMiddleware "search.SearchV1"; Handler "search.SearchV1"])).
    apply (In_first (sameRoute "POST" "/api/:target/_search")).
    reflexivity.
Defined.

Lemma permission_follows_handler_witness :
  exists h,
    handlerName [AuthMiddleware "document.Create";
                 Handler "document.CreateUpdate"] = Some h
    /\ "document.Create" = operationFor true h.
Proof.
  apply (permission_follows_handler cacheByUse cacheByUse_registersNoRoute
           (mkRoute "PUT" "/api/:target/_doc/:id"
              [AuthMiddleware "document.Create";
               Handler "document.CreateUpdate"])).
  - apply (In_first (sameRoute "PUT" "/api/:target/_doc/:id")). reflexivity.
  - reflexivity.
Defined.

